(** * FastAPIApp: a configuration wrapper around a framework application

    Shallow embedding of [src/applications.py].  The module defines one
    class, [FastAPIApp], whose constructor creates a framework application
    object and stores a reference to it in [self.app], and whose methods
    delegate to that object's [add_middleware].

    The framework (class [FastAPI] and its [add_middleware] method) is
    imported by the source, not defined by it.  It is a parameter of the
    development: the class [Framework] below.  Python objects live in a
    store indexed by references, so that sharing of the application object
    between the wrapper and its caller is visible. *)

From stdpp Require Import gmap strings list.

Local Open Scope string_scope.

(** ** Python values *)

(** The values that flow through the wrapper.  Python does not enforce the
    annotations of the source ([str], [Optional[str]], [Sequence[str]],
    [Dict[str, Any]], [bool], [int]) so every parameter is a value. *)
#[warnings="-register-all"]
Inductive PyVal : Type :=
  | PyNone
  | PyBool (b : bool)
  | PyInt (n : Z)
  | PyStr (s : string)
  | PyTuple (xs : list PyVal)
  | PyList (xs : list PyVal)
  | PyDict (kvs : list (string * PyVal)).

(** A keyword dictionary ([**kwargs]): keys with values, in call order.
    In Python the keys are distinct from each other and from the named
    parameters of the function that collects them; nothing below depends
    on it. *)
Definition kwargs : Type := list (string * PyVal).

(** An exception instance: its class name and its message. *)
Record PyExn : Type := mkExn { exc_type : string; exc_msg : string }.

(** The classes passed as [middleware_class]: the four the module imports
    and any other class of the caller's. *)
Inductive MiddlewareClass : Type :=
  | CORSMiddleware
  | GZipMiddleware
  | HTTPSRedirectMiddleware
  | TrustedHostMiddleware
  | OtherMiddleware (name : string).

(** A parameter with a default: the caller either omits it or passes a
    value.  ([PyNone] passed explicitly is [given PyNone], not [omitted].) *)
Inductive arg (A : Type) : Type :=
  | omitted
  | given (a : A).
Arguments omitted {A}.
Arguments given {A} a.

Definition or_default {A : Type} (d : A) (x : arg A) : A :=
  match x with
  | omitted => d
  | given a => a
  end.

(** ** The framework interface *)

(** The keyword arguments of one call [FastAPI(title=..., ..., **kwargs)]. *)
Record FastAPIArgs : Type := mkFastAPIArgs {
  title : PyVal;
  description : PyVal;
  version : PyVal;
  docs_url : PyVal;
  redoc_url : PyVal;
  openapi_url : PyVal;
  openapi_prefix : PyVal;
  openapi_tags : PyVal;
  terms_of_service : PyVal;
  contact : PyVal;
  license_info : PyVal;
  extra : kwargs
}.

(** What the source uses of the framework: the constructor, which returns
    an application object or raises, and [add_middleware], which updates
    the application object it is called on and returns [None] or raises. *)
Class Framework : Type := {
  App : Type;
  FastAPI : FastAPIArgs -> PyExn + App;
  App_add_middleware : App -> MiddlewareClass -> kwargs -> App * option PyExn
}.

(** References to application objects. *)
Abbreviation ref := positive (only parsing).

(** The store of application objects. *)
Abbreviation store := (gmap ref App) (only parsing).

(** ** The wrapper *)

(** An instance of class [FastAPIApp]: its only attribute is [app], absent
    until [__init__] assigns it. *)
Record FastAPIApp : Type := mkFastAPIApp { app : option ref }.

(** The bare instance [FastAPIApp.__new__(FastAPIApp)]: no attribute yet. *)
Definition __new__ : FastAPIApp := {| app := None |}.

(** [AttributeError] of reading [self.app] on an instance without it. *)
Definition AttributeError_app : PyExn :=
  {| exc_type := "AttributeError";
     exc_msg := "'FastAPIApp' object has no attribute 'app'" |}.

Section Wrapper.
Context {F : Framework}.

(** The outcome of running a piece of code from a store: a value, or a
    raised exception, each with the store it leaves; [Wrong] is a read
    through a reference that the store does not hold, which no Python
    program performs. *)
Inductive outcome (A : Type) : Type :=
  | Return (a : A) (s : store)
  | Raise (e : PyExn) (s : store)
  | Wrong.
Arguments Return {A} a s.
Arguments Raise {A} e s.
Arguments Wrong {A}.

Definition M (A : Type) : Type := store -> outcome A.

#[export] Instance M_ret : MRet M := fun A a s => Return a s.

#[export] Instance M_bind : MBind M := fun A B k m s =>
  match m s with
  | Return a s' => k a s'
  | Raise e s' => Raise e s'
  | Wrong => Wrong
  end.

(** The expression [FastAPI(...)]: a new object at a fresh reference. *)
Definition new_FastAPI (args : FastAPIArgs) : M ref := fun s =>
  match FastAPI args with
  | inl e => Raise e s
  | inr a => let r := fresh (dom s) in Return r (<[r := a]> s)
  end.

(** The call [r.add_middleware(cls, **options)] on the object at [r]. *)
Definition call_add_middleware (r : ref) (cls : MiddlewareClass)
    (options : kwargs) : M unit := fun s =>
  match s !! r with
  | None => Wrong
  | Some a =>
      match App_add_middleware a cls options with
      | (a', None) => Return tt (<[r := a']> s)
      | (a', Some e) => Raise e (<[r := a']> s)
      end
  end.

(** The expression [self.app]. *)
Definition getattr_app (self : FastAPIApp) : M ref := fun s =>
  match app self with
  | Some r => Return r s
  | None => Raise AttributeError_app s
  end.

(** [FastAPIApp.__init__]: returns [self] with [self.app] assigned. *)
Definition __init__ (self : FastAPIApp)
    (title description version docs_url redoc_url openapi_url
     openapi_prefix openapi_tags terms_of_service contact
     license_info : arg PyVal)
    (kwargs : kwargs) : M FastAPIApp :=
  let title := or_default (PyStr "FastAPI") title in
  let description := or_default (PyStr "") description in
  let version := or_default (PyStr "0.1.0") version in
  let docs_url := or_default (PyStr "/docs") docs_url in
  let redoc_url := or_default (PyStr "/redoc") redoc_url in
  let openapi_url := or_default (PyStr "/openapi.json") openapi_url in
  let openapi_prefix := or_default (PyStr "") openapi_prefix in
  let openapi_tags := or_default PyNone openapi_tags in
  let terms_of_service := or_default PyNone terms_of_service in
  let contact := or_default PyNone contact in
  let license_info := or_default PyNone license_info in
  r ← new_FastAPI
        {| title := title;
           description := description;
           version := version;
           docs_url := docs_url;
           redoc_url := redoc_url;
           openapi_url := openapi_url;
           openapi_prefix := openapi_prefix;
           openapi_tags := openapi_tags;
           terms_of_service := terms_of_service;
           contact := contact;
           license_info := license_info;
           extra := kwargs |};
  mret {| app := Some r |}.

(** [FastAPIApp.add_middleware]. *)
Definition add_middleware (self : FastAPIApp)
    (middleware_class : MiddlewareClass) (kwargs : kwargs) : M unit :=
  r ← getattr_app self;
  call_add_middleware r middleware_class kwargs.

(** [FastAPIApp.add_cors_middleware]. *)
Definition add_cors_middleware (self : FastAPIApp)
    (allow_origins allow_credentials allow_methods
     allow_headers : arg PyVal) : M unit :=
  let allow_origins := or_default (PyTuple [PyStr "*"]) allow_origins in
  let allow_credentials := or_default (PyBool true) allow_credentials in
  let allow_methods := or_default (PyTuple [PyStr "*"]) allow_methods in
  let allow_headers := or_default (PyTuple [PyStr "*"]) allow_headers in
  r ← getattr_app self;
  call_add_middleware r CORSMiddleware
    [("allow_origins", allow_origins);
     ("allow_credentials", allow_credentials);
     ("allow_methods", allow_methods);
     ("allow_headers", allow_headers)].

(** [FastAPIApp.add_gzip_middleware]. *)
Definition add_gzip_middleware (self : FastAPIApp)
    (minimum_size : arg PyVal) : M unit :=
  let minimum_size := or_default (PyInt 500) minimum_size in
  r ← getattr_app self;
  call_add_middleware r GZipMiddleware [("minimum_size", minimum_size)].

(** [FastAPIApp.add_https_redirect_middleware]. *)
Definition add_https_redirect_middleware (self : FastAPIApp) : M unit :=
  r ← getattr_app self;
  call_add_middleware r HTTPSRedirectMiddleware [].

(** [FastAPIApp.add_trusted_host_middleware]: [allowed_hosts] has no
    default. *)
Definition add_trusted_host_middleware (self : FastAPIApp)
    (allowed_hosts : PyVal) : M unit :=
  r ← getattr_app self;
  call_add_middleware r TrustedHostMiddleware
    [("allowed_hosts", allowed_hosts)].

(** [FastAPIApp.get_app]. *)
Definition get_app (self : FastAPIApp) : M ref :=
  getattr_app self.

End Wrapper.

Arguments Return {F A} a s.
Arguments Raise {F A} e s.
Arguments Wrong {F A}.

(** The expression [FastAPIApp(...)]: [__init__] run on a bare instance. *)
Definition new_FastAPIApp {F : Framework}
    (title description version docs_url redoc_url openapi_url
     openapi_prefix openapi_tags terms_of_service contact
     license_info : arg PyVal)
    (kwargs : kwargs) : M FastAPIApp :=
  __init__ __new__ title description version docs_url redoc_url openapi_url
    openapi_prefix openapi_tags terms_of_service contact license_info kwargs.

(** ** Sequences of attachment calls *)

(** One call of an attachment method, with its arguments. *)
Inductive Attachment : Type :=
  | Call_add_middleware (middleware_class : MiddlewareClass) (kwargs : kwargs)
  | Call_add_cors_middleware
      (allow_origins allow_credentials allow_methods allow_headers : arg PyVal)
  | Call_add_gzip_middleware (minimum_size : arg PyVal)
  | Call_add_https_redirect_middleware
  | Call_add_trusted_host_middleware (allowed_hosts : PyVal).

(** Performing one attachment call on [self]. *)
Definition attach {F : Framework} (self : FastAPIApp) (c : Attachment)
    : M unit :=
  match c with
  | Call_add_middleware cls kw => add_middleware self cls kw
  | Call_add_cors_middleware o c m h => add_cors_middleware self o c m h
  | Call_add_gzip_middleware n => add_gzip_middleware self n
  | Call_add_https_redirect_middleware => add_https_redirect_middleware self
  | Call_add_trusted_host_middleware hs => add_trusted_host_middleware self hs
  end.

(** Performing attachment calls one after the other; an exception ends the
    sequence. *)
Fixpoint attach_all {F : Framework} (self : FastAPIApp)
    (cs : list Attachment) : M unit :=
  match cs with
  | [] => mret tt
  | c :: cs => attach self c;; attach_all self cs
  end.

(** A middleware unit: a class with its options. *)
Definition MiddlewareUnit : Type := MiddlewareClass * kwargs.

(** The unit an attachment call is expected to install: the class and the
    options as the caller gave them, a default where one was omitted. *)
Definition unit_of (c : Attachment) : MiddlewareUnit :=
  match c with
  | Call_add_middleware cls kw => (cls, kw)
  | Call_add_cors_middleware o c m h =>
      (CORSMiddleware,
       [("allow_origins", or_default (PyTuple [PyStr "*"]) o);
        ("allow_credentials", or_default (PyBool true) c);
        ("allow_methods", or_default (PyTuple [PyStr "*"]) m);
        ("allow_headers", or_default (PyTuple [PyStr "*"]) h)])
  | Call_add_gzip_middleware n =>
      (GZipMiddleware, [("minimum_size", or_default (PyInt 500) n)])
  | Call_add_https_redirect_middleware => (HTTPSRedirectMiddleware, [])
  | Call_add_trusted_host_middleware hs =>
      (TrustedHostMiddleware, [("allowed_hosts", hs)])
  end.

(** Calling the framework's [add_middleware] directly on the object at
    [r], once per unit, in the order of the list. *)
Fixpoint install_all {F : Framework} (r : ref) (us : list MiddlewareUnit)
    : M unit :=
  match us with
  | [] => mret tt
  | u :: us => call_add_middleware r u.1 u.2;; install_all r us
  end.

(** The store an outcome leaves, if any. *)
Definition final_store {F : Framework} {A : Type} (o : outcome A)
    : option store :=
  match o with
  | Return _ s => Some s
  | Raise _ s => Some s
  | Wrong => None
  end.

(** ** The framework calls the methods are compared with *)

(** The arguments [__init__] passes to the framework's constructor. *)
Definition init_args
    (title description version docs_url redoc_url openapi_url
     openapi_prefix openapi_tags terms_of_service contact
     license_info : arg PyVal)
    (kwargs : kwargs) : FastAPIArgs :=
  {| title := or_default (PyStr "FastAPI") title;
     description := or_default (PyStr "") description;
     version := or_default (PyStr "0.1.0") version;
     docs_url := or_default (PyStr "/docs") docs_url;
     redoc_url := or_default (PyStr "/redoc") redoc_url;
     openapi_url := or_default (PyStr "/openapi.json") openapi_url;
     openapi_prefix := or_default (PyStr "") openapi_prefix;
     openapi_tags := or_default PyNone openapi_tags;
     terms_of_service := or_default PyNone terms_of_service;
     contact := or_default PyNone contact;
     license_info := or_default PyNone license_info;
     extra := kwargs |}.

(** What one call of the framework's [add_middleware] alone does, on the
    object [a] held at [r], with the unit [u]: the object it leaves is
    written at [r], and the call returns [None] or raises. *)
Definition framework_reply {F : Framework} (r : ref) (a : App)
    (u : MiddlewareUnit) (s : store) : outcome unit :=
  match App_add_middleware a u.1 u.2 with
  | (a', None) => Return tt (<[r := a']> s)
  | (a', Some e) => Raise e (<[r := a']> s)
  end.

(** The exception an outcome raises, if any. *)
Definition raised {F : Framework} {A : Type} (o : outcome A)
    : option PyExn :=
  match o with
  | Raise e _ => Some e
  | _ => None
  end.

(** ** A reference framework *)

(** Modelled from the spec: the underlying framework application (class
    [FastAPI] and its method [add_middleware], which the source imports
    from the framework and does not define).  The application object keeps
    the metadata and extension options it was constructed with and a
    middleware chain to which each installed unit is added in call order.
    What the framework rejects is left open: [check_args] and [check_unit]
    say which constructor arguments and which units raise. *)
Record RecordedApp : Type := mkRecordedApp {
  metadata : FastAPIArgs;
  user_middleware : list MiddlewareUnit
}.

(** Modelled from the spec: the framework's constructor and its
    [add_middleware] on [RecordedApp] (the framework is imported by the
    source, not defined by it).  The constructor stores its arguments as
    given and starts with an empty chain; [add_middleware] adds the unit
    at the end of the chain and leaves the metadata; a rejected call
    raises and changes nothing. *)
Definition recording (check_args : FastAPIArgs -> option PyExn)
    (check_unit : MiddlewareClass -> kwargs -> option PyExn) : Framework :=
  {| App := RecordedApp;
     FastAPI args :=
       match check_args args with
       | Some e => inl e
       | None => inr {| metadata := args; user_middleware := [] |}
       end;
     App_add_middleware a cls options :=
       match check_unit cls options with
       | Some e => (a, Some e)
       | None =>
           ({| metadata := metadata a;
               user_middleware := user_middleware a ++ [(cls, options)] |},
            None)
       end |}.

(** The reference framework that rejects nothing. *)
Definition permissive : Framework :=
  recording (fun _ => None) (fun _ _ => None).

(** A reference framework that rejects an empty version string and an
    empty list of allowed hosts. *)
Definition strict : Framework :=
  recording
    (fun args =>
       match version args with
       | PyStr "" => Some (mkExn "ValueError" "version is empty")
       | _ => None
       end)
    (fun cls options =>
       match cls, options with
       | TrustedHostMiddleware, [(_, PyList [])] =>
           Some (mkExn "ValueError" "allowed_hosts is empty")
       | _, _ => None
       end).

(** ** Fixtures *)

(** An application object of the reference framework, as constructed with
    every argument omitted, the instance that holds it at reference 1 and
    the store with that one object. *)
Definition app0 : RecordedApp :=
  {| metadata :=
       init_args omitted omitted omitted omitted omitted omitted omitted
         omitted omitted omitted omitted [];
     user_middleware := [] |}.

Definition self0 : FastAPIApp := {| app := Some 1%positive |}.

Definition store0 : gmap positive RecordedApp := {[ 1%positive := app0 ]}.

(** ** How the wrapper's methods run *)

Section WrapperFacts.
Context {F : Framework}.

Lemma bind_run {A B : Type} (m : M A) (k : A -> M B) (s : store) :
  (m ≫= k) s =
  match m s with
  | Return a s' => k a s'
  | Raise e s' => Raise e s'
  | Wrong => Wrong
  end.
Proof. reflexivity. Qed.

Lemma init_run (self : FastAPIApp) t d v du ru ou op ot tos c li kw
    (s : store) :
  __init__ self t d v du ru ou op ot tos c li kw s =
  match FastAPI (init_args t d v du ru ou op ot tos c li kw) with
  | inl e => Raise e s
  | inr a => Return {| app := Some (fresh (dom s)) |}
               (<[fresh (dom s) := a]> s)
  end.
Proof.
  unfold __init__, init_args; cbv zeta.
  rewrite bind_run. unfold new_FastAPI.
  destruct (FastAPI _); reflexivity.
Qed.

Lemma getattr_app_constructed (self : FastAPIApp) (r : ref) (s : store) :
  app self = Some r -> getattr_app self s = Return r s.
Proof. intros H. unfold getattr_app. rewrite H. reflexivity. Qed.

Lemma getattr_app_bare (self : FastAPIApp) (s : store) :
  app self = None -> getattr_app self s = Raise AttributeError_app s.
Proof. intros H. unfold getattr_app. rewrite H. reflexivity. Qed.

Lemma call_add_middleware_live (r : ref) (a : App) cls kw (s : store) :
  s !! r = Some a ->
  call_add_middleware r cls kw s = framework_reply r a (cls, kw) s.
Proof.
  intros H. unfold call_add_middleware, framework_reply. rewrite H.
  reflexivity.
Qed.

(** Unfolds an attachment call down to the read of [self.app]. *)
Ltac unfold_attach :=
  simpl attach;
  unfold add_middleware, add_cors_middleware, add_gzip_middleware,
    add_https_redirect_middleware, add_trusted_host_middleware;
  cbv zeta; rewrite bind_run.

(** On a constructed instance every attachment method is one call of the
    framework's [add_middleware] with the unit [unit_of] gives. *)
Lemma attach_constructed (self : FastAPIApp) (r : ref) (c : Attachment)
    (s : store) :
  app self = Some r ->
  attach self c s = call_add_middleware r (unit_of c).1 (unit_of c).2 s.
Proof.
  intros H.
  destruct c; unfold_attach;
    rewrite (getattr_app_constructed self r s H); reflexivity.
Qed.

(** On a bare instance every attachment method raises at [self.app]. *)
Lemma attach_bare (self : FastAPIApp) (c : Attachment) (s : store) :
  app self = None -> attach self c s = Raise AttributeError_app s.
Proof.
  intros H.
  destruct c; unfold_attach;
    rewrite (getattr_app_bare self s H); reflexivity.
Qed.

Lemma attach_all_constructed (self : FastAPIApp) (r : ref)
    (cs : list Attachment) (s : store) :
  app self = Some r ->
  attach_all self cs s = install_all r (map unit_of cs) s.
Proof.
  intros H. revert s.
  induction cs as [|c cs IH]; intros s; [reflexivity|].
  cbn [attach_all install_all map].
  rewrite !bind_run, (attach_constructed self r c s H).
  destruct (call_add_middleware _ _ _ s); auto.
Qed.

(** An attachment on a constructed instance whose reference is live leaves
    the framework's reply. *)
Lemma attach_live (self : FastAPIApp) (r : ref) (a : App) (c : Attachment)
    (s : store) :
  app self = Some r -> s !! r = Some a ->
  attach self c s = framework_reply r a (unit_of c) s.
Proof.
  intros H Hr. rewrite (attach_constructed self r c s H).
  rewrite (call_add_middleware_live r a _ _ s Hr).
  destruct (unit_of c); reflexivity.
Qed.

(** A run of direct installations never goes [Wrong] from a live
    reference, keeps the reference live and writes at [r] only. *)
Lemma install_all_frame (r : ref) (us : list MiddlewareUnit) (s : store) :
  is_Some (s !! r) ->
  exists s', final_store (install_all r us s) = Some s' /\
    is_Some (s' !! r) /\
    (forall r', r' <> r -> s' !! r' = s !! r') /\
    dom s' = dom s.
Proof.
  revert s. induction us as [|u us IH]; intros s Hr.
  - exists s. simpl. auto.
  - destruct Hr as [a Ha].
    cbn [install_all]. rewrite bind_run.
    rewrite (call_add_middleware_live r a _ _ s Ha).
    unfold framework_reply; cbn [fst snd].
    destruct (App_add_middleware a u.1 u.2) as [a' [e|]].
    + exists (<[r := a']> s). cbn [final_store]. split; [reflexivity|].
      split; [rewrite lookup_insert_eq; eauto|].
      split; [intros r' Hne; rewrite lookup_insert_ne; auto|].
      apply dom_insert_lookup_L; eauto.
    + destruct (IH (<[r := a']> s)) as (s' & Hs' & Hl & Hf & Hd).
      { rewrite lookup_insert_eq; eauto. }
      exists s'. split; [exact Hs'|]. split; [exact Hl|].
      split.
      * intros r' Hne. rewrite (Hf r' Hne), lookup_insert_ne; auto.
      * rewrite Hd. apply dom_insert_lookup_L; eauto.
Qed.

(** An observation of the application object that the framework's
    [add_middleware] preserves is preserved by a run of installations. *)
Lemma install_all_preserves {X : Type} (obs : App -> X) (r : ref)
    (us : list MiddlewareUnit) :
  (forall a cls kw, obs (App_add_middleware a cls kw).1 = obs a) ->
  forall (s : store) (a : App), s !! r = Some a ->
  exists s' a', final_store (install_all r us s) = Some s' /\
    s' !! r = Some a' /\ obs a' = obs a.
Proof.
  intros Hobs. induction us as [|u us IH]; intros s a Ha.
  - exists s, a. simpl. auto.
  - cbn [install_all]. rewrite bind_run.
    rewrite (call_add_middleware_live r a _ _ s Ha).
    unfold framework_reply; cbn [fst snd].
    specialize (Hobs a u.1 u.2).
    destruct (App_add_middleware a u.1 u.2) as [a' [e|]]; simpl in Hobs.
    + exists (<[r := a']> s), a'. cbn [final_store].
      rewrite lookup_insert_eq. auto.
    + destruct (IH (<[r := a']> s) a') as (s' & a'' & Hs' & Hl & Ho).
      { apply lookup_insert_eq. }
      exists s', a''. split; [exact Hs'|]. split; [exact Hl|].
      congruence.
Qed.

End WrapperFacts.

(** ** The reference framework at work *)

Section Recording.
Variable check_args : FastAPIArgs -> option PyExn.
Variable check_unit : MiddlewareClass -> kwargs -> option PyExn.

(** The framework's [add_middleware] never changes the metadata. *)
Lemma recording_keeps_metadata (a : RecordedApp) cls kw :
  metadata
    (App_add_middleware (Framework := recording check_args check_unit)
       a cls kw).1 = metadata a.
Proof. simpl. destruct (check_unit cls kw); reflexivity. Qed.

End Recording.

(** In the framework that rejects nothing, a run of installations extends
    the chain by the units, in their order. *)
Lemma permissive_install_all (r : ref) (us : list MiddlewareUnit) :
  forall (s : gmap positive RecordedApp) (a : RecordedApp),
  s !! r = Some a ->
  install_all (F := permissive) r us s =
  Return (F := permissive) tt
    (<[r := {| metadata := metadata a;
               user_middleware := user_middleware a ++ us |}]> s).
Proof.
  induction us as [|[cls kw] us IH]; intros s a Ha.
  - cbn [install_all]. rewrite app_nil_r. destruct a as [m c]; simpl.
    rewrite insert_id; [reflexivity | exact Ha].
  - cbn [install_all fst snd]. rewrite bind_run.
    rewrite (call_add_middleware_live (F := permissive) r a cls kw s Ha).
    unfold framework_reply. cbn [fst snd].
    change (App_add_middleware (Framework := permissive) a cls kw)
      with ({| metadata := metadata a;
               user_middleware := user_middleware a ++ [(cls, kw)] |},
            @None PyExn).
    cbv iota beta.
    rewrite (IH _ _ (lookup_insert_eq s r _)). cbn [metadata user_middleware].
    rewrite insert_insert_eq, <- app_assoc. reflexivity.
Qed.

(** ** Construction *)

(** C1: the fields passed to the constructor reach the framework's
    constructor as they are, and the application [get_app] returns is the
    object that call produced; in the reference framework its metadata
    fields and extension options equal the ones passed in. *)
Theorem init_forwards_fields_verbatim :
  (forall (F : Framework) t d v du ru ou op ot tos c li kw (s : store),
     (new_FastAPIApp (given t) (given d) (given v) (given du) (given ru)
        (given ou) (given op) (given ot) (given tos) (given c) (given li) kw
      ≫= get_app) s =
     match FastAPI (mkFastAPIArgs t d v du ru ou op ot tos c li kw) with
     | inl e => Raise e s
     | inr a => Return (fresh (dom s)) (<[fresh (dom s) := a]> s)
     end)
  /\
  (forall t d v du ru ou op ot tos c li kw (s : gmap positive RecordedApp),
     exists r s' a,
       (new_FastAPIApp (F := permissive)
          (given t) (given d) (given v) (given du) (given ru)
          (given ou) (given op) (given ot) (given tos) (given c) (given li) kw
        ≫= get_app) s = Return (F := permissive) r s' /\
       s' !! r = Some a /\
       title (metadata a) = t /\
       description (metadata a) = d /\
       version (metadata a) = v /\
       docs_url (metadata a) = du /\
       redoc_url (metadata a) = ru /\
       openapi_url (metadata a) = ou /\
       openapi_prefix (metadata a) = op /\
       openapi_tags (metadata a) = ot /\
       terms_of_service (metadata a) = tos /\
       contact (metadata a) = c /\
       license_info (metadata a) = li /\
       extra (metadata a) = kw /\
       user_middleware a = []).
Proof.
  split.
  - intros. unfold new_FastAPIApp. rewrite bind_run, init_run.
    unfold init_args; cbn [or_default].
    destruct (FastAPI _); reflexivity.
  - intros. eexists _, _, _.
    split.
    + unfold new_FastAPIApp. rewrite bind_run, init_run.
      unfold init_args; cbn [or_default]. reflexivity.
    + split; [apply lookup_insert_eq|]. cbn. repeat split.
Qed.

(** C9: with every argument omitted the constructor calls the framework's
    constructor with the defaults of the signature and no extension
    option, and succeeds when that call does; in the reference framework
    it succeeds and the metadata are the defaults. *)
Theorem init_defaults :
  (forall (F : Framework) (s : store),
     new_FastAPIApp omitted omitted omitted omitted omitted omitted omitted
       omitted omitted omitted omitted [] s =
     match FastAPI
             {| title := PyStr "FastAPI";
                description := PyStr "";
                version := PyStr "0.1.0";
                docs_url := PyStr "/docs";
                redoc_url := PyStr "/redoc";
                openapi_url := PyStr "/openapi.json";
                openapi_prefix := PyStr "";
                openapi_tags := PyNone;
                terms_of_service := PyNone;
                contact := PyNone;
                license_info := PyNone;
                extra := [] |} with
     | inl e => Raise e s
     | inr a => Return {| app := Some (fresh (dom s)) |}
                  (<[fresh (dom s) := a]> s)
     end)
  /\
  (forall s : gmap positive RecordedApp,
     exists r s' a,
       (new_FastAPIApp (F := permissive) omitted omitted omitted omitted
          omitted omitted omitted omitted omitted omitted omitted []
        ≫= get_app) s = Return (F := permissive) r s' /\
       s' !! r = Some a /\
       title (metadata a) = PyStr "FastAPI" /\
       description (metadata a) = PyStr "" /\
       version (metadata a) = PyStr "0.1.0" /\
       docs_url (metadata a) = PyStr "/docs" /\
       redoc_url (metadata a) = PyStr "/redoc" /\
       openapi_url (metadata a) = PyStr "/openapi.json" /\
       openapi_prefix (metadata a) = PyStr "" /\
       openapi_tags (metadata a) = PyNone /\
       terms_of_service (metadata a) = PyNone /\
       contact (metadata a) = PyNone /\
       license_info (metadata a) = PyNone /\
       extra (metadata a) = []).
Proof.
  split.
  - intros. unfold new_FastAPIApp. rewrite init_run. reflexivity.
  - intros. eexists _, _, _.
    split.
    + unfold new_FastAPIApp. rewrite bind_run, init_run.
      unfold init_args; cbn [or_default]. reflexivity.
    + split; [apply lookup_insert_eq|]. cbn. repeat split.
Qed.

(** ** Attachment *)

(** In the framework that rejects nothing, one attachment call on a
    constructed instance returns [None] and adds its unit at the end of
    the chain. *)
Lemma permissive_attach (self : FastAPIApp) (r : ref) (a : RecordedApp)
    (c : Attachment) (s : gmap positive RecordedApp) :
  app self = Some r -> s !! r = Some a ->
  attach (F := permissive) self c s =
  Return (F := permissive) tt
    (<[r := {| metadata := metadata a;
               user_middleware := user_middleware a ++ [unit_of c] |}]> s).
Proof.
  intros H Ha. rewrite (attach_live (F := permissive) self r a c s H Ha).
  destruct (unit_of c) as [cls kw]. reflexivity.
Qed.

(** C2: a sequence of attachment calls on a constructed instance is the
    same sequence of calls of the framework's [add_middleware], one per
    attachment call and in the caller's order; each call returns [None];
    in the reference framework each call adds exactly its own unit at the
    end of the chain, so the chain lists the units in attachment order. *)
Theorem attachments_keep_call_order :
  (forall (F : Framework) (self : FastAPIApp) (r : ref)
          (cs : list Attachment) (s : store),
     app self = Some r ->
     attach_all self cs s = install_all r (map unit_of cs) s)
  /\
  (forall (self : FastAPIApp) (r : ref) (a : RecordedApp) (c : Attachment)
          (s : gmap positive RecordedApp),
     app self = Some r -> s !! r = Some a ->
     attach (F := permissive) self c s =
     Return (F := permissive) tt
       (<[r := {| metadata := metadata a;
                  user_middleware := user_middleware a ++ [unit_of c] |}]> s))
  /\
  (forall (self : FastAPIApp) (r : ref) (a : RecordedApp)
          (cs : list Attachment) (s : gmap positive RecordedApp),
     app self = Some r -> s !! r = Some a ->
     attach_all (F := permissive) self cs s =
     Return (F := permissive) tt
       (<[r := {| metadata := metadata a;
                  user_middleware :=
                    user_middleware a ++ map unit_of cs |}]> s)).
Proof.
  split; [|split].
  - intros F self r cs s H. apply attach_all_constructed, H.
  - intros self r a c s H Ha. apply permissive_attach; assumption.
  - intros self r a cs s H Ha.
    rewrite (attach_all_constructed (F := permissive) self r cs s H).
    apply permissive_install_all, Ha.
Qed.

(** GZip attached before CORS on the fixture: the chain holds the GZip
    unit first and the CORS unit second. *)
Lemma attachments_keep_call_order_witness :
  attach_all (F := permissive) self0
    [Call_add_gzip_middleware omitted;
     Call_add_cors_middleware omitted omitted omitted omitted] store0 =
  Return (F := permissive) tt
    (<[1%positive :=
         {| metadata := metadata app0;
            user_middleware :=
              [(GZipMiddleware, [("minimum_size", PyInt 500)]);
               (CORSMiddleware,
                [("allow_origins", PyTuple [PyStr "*"]);
                 ("allow_credentials", PyBool true);
                 ("allow_methods", PyTuple [PyStr "*"]);
                 ("allow_headers", PyTuple [PyStr "*"])])] |}]> store0).
Proof.
  exact (proj2 (proj2 attachments_keep_call_order) self0 1%positive app0
           [Call_add_gzip_middleware omitted;
            Call_add_cors_middleware omitted omitted omitted omitted]
           store0 eq_refl eq_refl).
Defined.

(** C5: the CORS attachment installs one CORS unit whose four options are
    the values supplied, and where a value is omitted the default of the
    signature: the one-element tuple of the star for origins, methods and
    headers, and true for credentials. *)
Theorem cors_options_forwarded :
  (forall (F : Framework) (self : FastAPIApp) (r : ref) (a : App)
          (s : store) (o c m h : PyVal),
     app self = Some r -> s !! r = Some a ->
     add_cors_middleware self omitted omitted omitted omitted s =
       framework_reply r a
         (CORSMiddleware,
          [("allow_origins", PyTuple [PyStr "*"]);
           ("allow_credentials", PyBool true);
           ("allow_methods", PyTuple [PyStr "*"]);
           ("allow_headers", PyTuple [PyStr "*"])]) s
     /\
     add_cors_middleware self (given o) (given c) (given m) (given h) s =
       framework_reply r a
         (CORSMiddleware,
          [("allow_origins", o);
           ("allow_credentials", c);
           ("allow_methods", m);
           ("allow_headers", h)]) s
     /\
     add_cors_middleware self (given o) (given c) omitted omitted s =
       framework_reply r a
         (CORSMiddleware,
          [("allow_origins", o);
           ("allow_credentials", c);
           ("allow_methods", PyTuple [PyStr "*"]);
           ("allow_headers", PyTuple [PyStr "*"])]) s)
  /\
  (forall (self : FastAPIApp) (r : ref) (a : RecordedApp)
          (s : gmap positive RecordedApp) (o c m h : arg PyVal),
     app self = Some r -> s !! r = Some a ->
     add_cors_middleware (F := permissive) self o c m h s =
     Return (F := permissive) tt
       (<[r := {| metadata := metadata a;
                  user_middleware :=
                    user_middleware a ++
                    [(CORSMiddleware,
                      [("allow_origins", or_default (PyTuple [PyStr "*"]) o);
                       ("allow_credentials", or_default (PyBool true) c);
                       ("allow_methods", or_default (PyTuple [PyStr "*"]) m);
                       ("allow_headers", or_default (PyTuple [PyStr "*"]) h)])]
               |}]> s)).
Proof.
  split.
  - intros F self r a s o c m h H Ha. repeat split.
    + exact (attach_live self r a
               (Call_add_cors_middleware omitted omitted omitted omitted)
               s H Ha).
    + exact (attach_live self r a
               (Call_add_cors_middleware (given o) (given c) (given m)
                  (given h)) s H Ha).
    + exact (attach_live self r a
               (Call_add_cors_middleware (given o) (given c) omitted omitted)
               s H Ha).
  - intros self r a s o c m h H Ha.
    exact (permissive_attach self r a (Call_add_cors_middleware o c m h)
             s H Ha).
Qed.

(** CORS attached on the fixture with one allowed origin and credentials
    off: the chain holds exactly one unit, with those two values. *)
Lemma cors_options_forwarded_witness :
  add_cors_middleware (F := permissive) self0
    (given (PyList [PyStr "https://example.com"])) (given (PyBool false))
    omitted omitted store0 =
  Return (F := permissive) tt
    (<[1%positive :=
         {| metadata := metadata app0;
            user_middleware :=
              [(CORSMiddleware,
                [("allow_origins", PyList [PyStr "https://example.com"]);
                 ("allow_credentials", PyBool false);
                 ("allow_methods", PyTuple [PyStr "*"]);
                 ("allow_headers", PyTuple [PyStr "*"])])] |}]> store0).
Proof.
  exact (proj2 cors_options_forwarded self0 1%positive app0 store0
           (given (PyList [PyStr "https://example.com"]))
           (given (PyBool false)) omitted omitted eq_refl eq_refl).
Defined.

(** C6: the GZip attachment installs one GZip unit whose only option,
    [minimum_size], is the value supplied, and 500 when it is omitted. *)
Theorem gzip_minimum_size_forwarded :
  (forall (F : Framework) (self : FastAPIApp) (r : ref) (a : App)
          (s : store) (n : PyVal),
     app self = Some r -> s !! r = Some a ->
     add_gzip_middleware self omitted s =
       framework_reply r a (GZipMiddleware, [("minimum_size", PyInt 500)]) s
     /\
     add_gzip_middleware self (given n) s =
       framework_reply r a (GZipMiddleware, [("minimum_size", n)]) s)
  /\
  (forall (self : FastAPIApp) (r : ref) (a : RecordedApp)
          (s : gmap positive RecordedApp) (n : arg PyVal),
     app self = Some r -> s !! r = Some a ->
     add_gzip_middleware (F := permissive) self n s =
     Return (F := permissive) tt
       (<[r := {| metadata := metadata a;
                  user_middleware :=
                    user_middleware a ++
                    [(GZipMiddleware,
                      [("minimum_size", or_default (PyInt 500) n)])]
               |}]> s)).
Proof.
  split.
  - intros F self r a s n H Ha. split.
    + exact (attach_live self r a (Call_add_gzip_middleware omitted) s H Ha).
    + exact (attach_live self r a (Call_add_gzip_middleware (given n))
               s H Ha).
  - intros self r a s n H Ha.
    exact (permissive_attach self r a (Call_add_gzip_middleware n) s H Ha).
Qed.

(** GZip attached on the fixture with a threshold of 1000. *)
Lemma gzip_minimum_size_forwarded_witness :
  add_gzip_middleware (F := permissive) self0 (given (PyInt 1000)) store0 =
  Return (F := permissive) tt
    (<[1%positive :=
         {| metadata := metadata app0;
            user_middleware :=
              [(GZipMiddleware, [("minimum_size", PyInt 1000)])] |}]> store0).
Proof.
  exact (proj2 gzip_minimum_size_forwarded self0 1%positive app0 store0
           (given (PyInt 1000)) eq_refl eq_refl).
Defined.

(** A start-up script run from the empty store: construct with a title,
    attach GZip then CORS, ask for the application.  The caller receives
    reference 1, and the object there has the title and both units, GZip
    first. *)
Example startup_script :
  (self ← new_FastAPIApp (F := permissive) (given (PyStr "Shop")) omitted
            omitted omitted omitted (given PyNone) omitted omitted omitted
            omitted omitted [("debug", PyBool true)];
   attach_all self
     [Call_add_gzip_middleware (given (PyInt 1000));
      Call_add_cors_middleware
        (given (PyList [PyStr "https://example.com"])) (given (PyBool false))
        omitted omitted];;
   get_app self) ∅ =
  Return (F := permissive) 1%positive
    {[ 1%positive :=
         {| metadata :=
              {| title := PyStr "Shop";
                 description := PyStr "";
                 version := PyStr "0.1.0";
                 docs_url := PyStr "/docs";
                 redoc_url := PyStr "/redoc";
                 openapi_url := PyNone;
                 openapi_prefix := PyStr "";
                 openapi_tags := PyNone;
                 terms_of_service := PyNone;
                 contact := PyNone;
                 license_info := PyNone;
                 extra := [("debug", PyBool true)] |};
            user_middleware :=
              [(GZipMiddleware, [("minimum_size", PyInt 1000)]);
               (CORSMiddleware,
                [("allow_origins", PyList [PyStr "https://example.com"]);
                 ("allow_credentials", PyBool false);
                 ("allow_methods", PyTuple [PyStr "*"]);
                 ("allow_headers", PyTuple [PyStr "*"])])] |} ]}.
Proof. vm_compute. reflexivity. Qed.

(** ** Failures *)

Section Failures.
Context {F : Framework}.

(** The framework's reply raises [e] exactly when the framework's
    [add_middleware] does. *)
Lemma framework_reply_raises (r : ref) (a : App) (u : MiddlewareUnit)
    (s : store) (e : PyExn) :
  (exists s', framework_reply r a u s = Raise e s') <->
  (App_add_middleware a u.1 u.2).2 = Some e.
Proof.
  unfold framework_reply.
  destruct (App_add_middleware a u.1 u.2) as [a' [e'|]]; simpl; split.
  - intros [s' [= -> _]]. reflexivity.
  - intros [= ->]. eauto.
  - intros [s' [=]].
  - intros [=].
Qed.

(** The framework's reply returns exactly when the framework's
    [add_middleware] raises nothing. *)
Lemma framework_reply_returns (r : ref) (a : App) (u : MiddlewareUnit)
    (s : store) :
  (exists s', framework_reply r a u s = Return tt s') <->
  (App_add_middleware a u.1 u.2).2 = None.
Proof.
  unfold framework_reply.
  destruct (App_add_middleware a u.1 u.2) as [a' [e'|]]; simpl; split.
  - intros [s' [=]].
  - intros [=].
  - reflexivity.
  - eauto.
Qed.

(** Where an exception of an attachment call comes from. *)
Lemma attach_raise_origin (self : FastAPIApp) (c : Attachment)
    (s s' : store) (e : PyExn) :
  attach self c s = Raise e s' ->
  (app self = None /\ e = AttributeError_app /\ s' = s) \/
  (exists r a a', app self = Some r /\ s !! r = Some a /\
     App_add_middleware a (unit_of c).1 (unit_of c).2 = (a', Some e) /\
     s' = <[r := a']> s).
Proof.
  destruct (app self) as [r|] eqn:H.
  - rewrite (attach_constructed self r c s H). unfold call_add_middleware.
    destruct (s !! r) as [a|] eqn:Ha; [|discriminate].
    destruct (App_add_middleware a _ _) as [a' [e'|]] eqn:Hf; [|discriminate].
    intros [= -> <-]. right. exists r, a, a'. auto.
  - rewrite (attach_bare self c s H). intros [= <- <-]. left. auto.
Qed.

Lemma init_raise_origin (self : FastAPIApp) t d v du ru ou op ot tos c li kw
    (s s' : store) (e : PyExn) :
  __init__ self t d v du ru ou op ot tos c li kw s = Raise e s' <->
  FastAPI (init_args t d v du ru ou op ot tos c li kw) = inl e /\ s' = s.
Proof.
  rewrite init_run. destruct (FastAPI _) as [e'|a]; split.
  - intros [= -> ->]. auto.
  - intros [[= ->] ->]. reflexivity.
  - discriminate.
  - intros [[=] _].
Qed.

End Failures.

(** C3: on an instance that [__init__] has not run on, every attachment
    method and [get_app] raise the [AttributeError] of the missing
    attribute and leave the store as it is; and an exception that leaves a
    method of the wrapper is either that one, on such an instance, or the
    one the framework raised in the call the method delegates to. *)
Theorem methods_before_construction_raise :
  forall F : Framework,
    (forall (s : store) cls kw,
       add_middleware __new__ cls kw s = Raise AttributeError_app s) /\
    (forall (s : store) o c m h,
       add_cors_middleware __new__ o c m h s = Raise AttributeError_app s) /\
    (forall (s : store) n,
       add_gzip_middleware __new__ n s = Raise AttributeError_app s) /\
    (forall (s : store),
       add_https_redirect_middleware __new__ s = Raise AttributeError_app s) /\
    (forall (s : store) hs,
       add_trusted_host_middleware __new__ hs s = Raise AttributeError_app s) /\
    (forall (s : store),
       get_app __new__ s = Raise AttributeError_app s) /\
    (forall (self : FastAPIApp) (c : Attachment) (s s' : store) (e : PyExn),
       attach self c s = Raise e s' ->
       (app self = None /\ e = AttributeError_app /\ s' = s) \/
       (exists r a a', app self = Some r /\ s !! r = Some a /\
          App_add_middleware a (unit_of c).1 (unit_of c).2 = (a', Some e) /\
          s' = <[r := a']> s)) /\
    (forall (self : FastAPIApp) (s s' : store) (e : PyExn),
       get_app self s = Raise e s' ->
       app self = None /\ e = AttributeError_app /\ s' = s) /\
    (forall (self : FastAPIApp) t d v du ru ou op ot tos c li kw
            (s s' : store) (e : PyExn),
       __init__ self t d v du ru ou op ot tos c li kw s = Raise e s' ->
       FastAPI (init_args t d v du ru ou op ot tos c li kw) = inl e /\
       s' = s).
Proof.
  intros F.
  split; [|split; [|split; [|split; [|split; [|split;
    [|split; [|split]]]]]]].
  - intros s cls kw.
    exact (attach_bare __new__ (Call_add_middleware cls kw) s eq_refl).
  - intros s o c m h.
    exact (attach_bare __new__ (Call_add_cors_middleware o c m h) s eq_refl).
  - intros s n.
    exact (attach_bare __new__ (Call_add_gzip_middleware n) s eq_refl).
  - intros s.
    exact (attach_bare __new__ Call_add_https_redirect_middleware s eq_refl).
  - intros s hs.
    exact (attach_bare __new__ (Call_add_trusted_host_middleware hs) s
             eq_refl).
  - intros s. reflexivity.
  - intros self c s s' e H. exact (attach_raise_origin self c s s' e H).
  - intros self s s' e. unfold get_app, getattr_app.
    destruct (app self); [discriminate|]. intros [= <- <-]. auto.
  - intros self t d v du ru ou op ot tos c li kw s s' e H.
    apply init_raise_origin in H. exact H.
Qed.

(** GZip attached on a bare instance: the call raises the
    [AttributeError], which is the wrapper's own. *)
Lemma methods_before_construction_raise_witness :
  attach (F := permissive) __new__ (Call_add_gzip_middleware omitted) store0
  = Raise (F := permissive) AttributeError_app store0 /\
  ((app __new__ = None /\ AttributeError_app = AttributeError_app /\
    store0 = store0) \/
   (exists r a a', app __new__ = Some r /\ store0 !! r = Some a /\
      App_add_middleware (Framework := permissive) a
        (unit_of (Call_add_gzip_middleware omitted)).1
        (unit_of (Call_add_gzip_middleware omitted)).2
      = (a', Some AttributeError_app) /\
      store0 = <[r := a']> store0)).
Proof.
  destruct (methods_before_construction_raise permissive)
    as (_ & _ & Hgzip & _ & _ & _ & Honly & _).
  split.
  - exact (Hgzip store0 omitted).
  - exact (Honly __new__ (Call_add_gzip_middleware omitted) store0 store0
             AttributeError_app (Hgzip store0 omitted)).
Defined.

(** C4, as the code has it: [add_trusted_host_middleware] checks nothing.
    Whatever [allowed_hosts] is, empty or not, it is forwarded unchanged
    as the only option of one trusted-host unit, and the call raises
    exactly what the framework's [add_middleware] raises for that unit and
    returns when the framework raises nothing. *)
Theorem trusted_host_forwarded_unchecked :
  forall (F : Framework) (self : FastAPIApp) (r : ref) (a : App)
         (s : store) (allowed_hosts : PyVal),
    app self = Some r -> s !! r = Some a ->
    add_trusted_host_middleware self allowed_hosts s =
      framework_reply r a
        (TrustedHostMiddleware, [("allowed_hosts", allowed_hosts)]) s
    /\
    (forall e,
       (exists s', add_trusted_host_middleware self allowed_hosts s
                   = Raise e s') <->
       (App_add_middleware a TrustedHostMiddleware
          [("allowed_hosts", allowed_hosts)]).2 = Some e)
    /\
    ((exists s', add_trusted_host_middleware self allowed_hosts s
                 = Return tt s') <->
     (App_add_middleware a TrustedHostMiddleware
        [("allowed_hosts", allowed_hosts)]).2 = None).
Proof.
  intros F self r a s hs H Ha.
  pose proof (attach_live self r a (Call_add_trusted_host_middleware hs)
                s H Ha) as E.
  cbn [attach unit_of] in E.
  split; [exact E|]. rewrite E. split.
  - intros e. apply framework_reply_raises.
  - apply framework_reply_returns.
Qed.

(** In the framework that rejects an empty list of allowed hosts, the
    call with the empty list raises the framework's exception. *)
Lemma trusted_host_forwarded_unchecked_witness :
  exists s',
    add_trusted_host_middleware (F := strict) self0 (PyList []) store0 =
    Raise (F := strict) (mkExn "ValueError" "allowed_hosts is empty") s'.
Proof.
  exact (proj2 (proj1 (proj2
           (trusted_host_forwarded_unchecked strict self0 1%positive app0
              store0 (PyList []) eq_refl eq_refl))
           (mkExn "ValueError" "allowed_hosts is empty")) eq_refl).
Defined.

(** In the framework that rejects nothing, the call with the empty list
    is not rejected: it returns [None] and the chain holds a trusted-host
    unit whose [allowed_hosts] is the empty list. *)
Lemma trusted_host_empty_list_accepted :
  add_trusted_host_middleware (F := permissive) self0 (PyList []) store0 =
  Return (F := permissive) tt
    (<[1%positive :=
         {| metadata := metadata app0;
            user_middleware :=
              [(TrustedHostMiddleware, [("allowed_hosts", PyList [])])]
         |}]> store0)
  /\
  raised
    (add_trusted_host_middleware (F := permissive) self0 (PyList []) store0)
  = None.
Proof.
  pose proof (permissive_attach self0 1%positive app0
                (Call_add_trusted_host_middleware (PyList [])) store0
                eq_refl eq_refl) as E.
  cbn [attach unit_of] in E. rewrite E. split; reflexivity.
Qed.

(** C8: the outcome of the constructor is decided by the framework's
    constructor alone, called with the fields and the extension options
    as given; the outcome of every attachment method on a constructed
    instance is decided by the framework's [add_middleware] alone, called
    with the class and the options as given.  A method raises [e] exactly
    when that framework call raises [e]. *)
Theorem no_validation_errors_pass_through :
  forall F : Framework,
    (forall (self : FastAPIApp) t d v du ru ou op ot tos c li kw (s : store),
       __init__ self t d v du ru ou op ot tos c li kw s =
       match FastAPI (init_args t d v du ru ou op ot tos c li kw) with
       | inl e => Raise e s
       | inr a => Return {| app := Some (fresh (dom s)) |}
                    (<[fresh (dom s) := a]> s)
       end) /\
    (forall t d v du ru ou op ot tos c li kw,
       extra (init_args t d v du ru ou op ot tos c li kw) = kw) /\
    (forall (self : FastAPIApp) t d v du ru ou op ot tos c li kw
            (s : store) (e : PyExn),
       (exists s', __init__ self t d v du ru ou op ot tos c li kw s
                   = Raise e s') <->
       FastAPI (init_args t d v du ru ou op ot tos c li kw) = inl e) /\
    (forall (self : FastAPIApp) (r : ref) (a : App) (s : store) cls kw,
       app self = Some r -> s !! r = Some a ->
       add_middleware self cls kw s = framework_reply r a (cls, kw) s) /\
    (forall (self : FastAPIApp) (r : ref) (a : App) (s : store)
            (c : Attachment),
       app self = Some r -> s !! r = Some a ->
       attach self c s = framework_reply r a (unit_of c) s) /\
    (forall (self : FastAPIApp) (r : ref) (a : App) (s : store)
            (c : Attachment) (e : PyExn),
       app self = Some r -> s !! r = Some a ->
       ((exists s', attach self c s = Raise e s') <->
        (App_add_middleware a (unit_of c).1 (unit_of c).2).2 = Some e)).
Proof.
  intros F.
  split; [|split; [|split; [|split; [|split]]]].
  - intros. apply init_run.
  - reflexivity.
  - intros self t d v du ru ou op ot tos c li kw s e. split.
    + intros [s' H]. apply init_raise_origin in H. apply H.
    + intros H. exists s. apply init_raise_origin. auto.
  - intros self r a s cls kw H Ha.
    exact (attach_live self r a (Call_add_middleware cls kw) s H Ha).
  - intros self r a s c H Ha. exact (attach_live self r a c s H Ha).
  - intros self r a s c e H Ha.
    rewrite (attach_live self r a c s H Ha).
    apply framework_reply_raises.
Qed.

(** In the framework that rejects an empty version string, constructing
    with that version raises the framework's exception; an extension
    option reaches the framework as given. *)
Lemma no_validation_errors_pass_through_witness :
  (exists s',
     __init__ (F := strict) __new__ omitted omitted (given (PyStr ""))
       omitted omitted omitted omitted omitted omitted omitted omitted
       [("debug", PyBool true)] ∅ =
     Raise (F := strict) (mkExn "ValueError" "version is empty") s') /\
  add_middleware (F := strict) self0 (OtherMiddleware "Timing")
    [("budget_ms", PyInt 250)] store0 =
  framework_reply (F := strict) 1%positive app0
    (OtherMiddleware "Timing", [("budget_ms", PyInt 250)]) store0.
Proof.
  destruct (no_validation_errors_pass_through strict)
    as (_ & _ & Hinit & Hadd & _).
  split.
  - apply Hinit. reflexivity.
  - apply Hadd; reflexivity.
Defined.

(** ** Sharing *)

(** C7: [get_app] returns the reference held in [self.app] and leaves the
    store as it is, so nothing is copied.  After construction that
    reference is the one new object the constructor created, holding what
    the framework's constructor returned; every attachment method writes
    the object at that reference and no other, and [get_app] returns the
    same reference afterwards. *)
Theorem get_app_returns_shared_instance :
  forall F : Framework,
    (forall (self : FastAPIApp) (r : ref) (s : store),
       app self = Some r -> get_app self s = Return r s) /\
    (forall t d v du ru ou op ot tos c li kw (s s' : store)
            (self : FastAPIApp),
       new_FastAPIApp t d v du ru ou op ot tos c li kw s = Return self s' ->
       get_app self s' = Return (fresh (dom s)) s' /\
       s !! fresh (dom s) = None /\
       dom s' = {[fresh (dom s)]} ∪ dom s /\
       (forall r', r' <> fresh (dom s) -> s' !! r' = s !! r') /\
       exists a,
         FastAPI (init_args t d v du ru ou op ot tos c li kw) = inr a /\
         s' !! fresh (dom s) = Some a) /\
    (forall (self : FastAPIApp) (r : ref) (a : App) (c : Attachment)
            (s : store),
       app self = Some r -> s !! r = Some a ->
       exists s',
         final_store (attach self c s) = Some s' /\
         s' = <[r := (App_add_middleware a (unit_of c).1 (unit_of c).2).1]> s /\
         dom s' = dom s /\
         get_app self s' = Return r s').
Proof.
  intros F. split; [|split].
  - intros self r s H. exact (getattr_app_constructed self r s H).
  - intros t d v du ru ou op ot tos c li kw s s' self.
    unfold new_FastAPIApp. rewrite init_run.
    destruct (FastAPI _) as [e|a] eqn:Hf; [discriminate|].
    intros [= <- <-]. split; [reflexivity|].
    split; [apply not_elem_of_dom, is_fresh|].
    split; [apply dom_insert_L|].
    split; [intros r' Hne; apply lookup_insert_ne; auto|].
    exists a. split; [reflexivity|apply lookup_insert_eq].
  - intros self r a c s H Ha.
    rewrite (attach_live self r a c s H Ha).
    exists (<[r := (App_add_middleware a (unit_of c).1 (unit_of c).2).1]> s).
    split.
    + unfold framework_reply.
      destruct (App_add_middleware a _ _) as [a' [e|]]; reflexivity.
    + split; [reflexivity|].
      split; [apply dom_insert_lookup_L; eauto|].
      exact (getattr_app_constructed self r _ H).
Qed.

(** On the fixture, [get_app] before and after a GZip attachment returns
    reference 1; the object there has the GZip unit after the call. *)
Lemma get_app_returns_shared_instance_witness :
  get_app (F := permissive) self0 store0 = Return (F := permissive) 1%positive store0 /\
  exists s',
    final_store (attach (F := permissive) self0
                   (Call_add_gzip_middleware omitted) store0) = Some s' /\
    s' = <[1%positive :=
             {| metadata := metadata app0;
                user_middleware :=
                  [(GZipMiddleware, [("minimum_size", PyInt 500)])] |}]>
           store0 /\
    dom s' = dom store0 /\
    get_app (F := permissive) self0 s' = Return (F := permissive) 1%positive s'.
Proof.
  destruct (get_app_returns_shared_instance permissive) as (Hget & _ & Hatt).
  split.
  - exact (Hget self0 1%positive store0 eq_refl).
  - exact (Hatt self0 1%positive app0 (Call_add_gzip_middleware omitted)
             store0 eq_refl eq_refl).
Defined.

(** ** Frame *)

(** C10: a sequence of attachment calls on a constructed instance writes
    the application object of that instance and nothing else in the
    store, and writes it through the framework's [add_middleware] only:
    whatever that method leaves unchanged in the object, the sequence
    leaves unchanged.  In the reference framework, whatever it rejects,
    the metadata and extension options of the application are unchanged
    by every sequence of attachment calls. *)
Theorem attachments_change_only_the_chain :
  (forall (F : Framework) (X : Type) (obs : App -> X) (self : FastAPIApp)
          (r : ref) (a : App) (cs : list Attachment) (s : store),
     (forall a cls kw, obs (App_add_middleware a cls kw).1 = obs a) ->
     app self = Some r -> s !! r = Some a ->
     exists s' a',
       final_store (attach_all self cs s) = Some s' /\
       s' !! r = Some a' /\ obs a' = obs a /\
       (forall r', r' <> r -> s' !! r' = s !! r') /\
       dom s' = dom s)
  /\
  (forall check_args check_unit (self : FastAPIApp) (r : ref)
          (a : RecordedApp) (cs : list Attachment)
          (s : gmap positive RecordedApp),
     app self = Some r -> s !! r = Some a ->
     exists s' a',
       final_store
         (attach_all (F := recording check_args check_unit) self cs s)
       = Some s' /\
       s' !! r = Some a' /\ metadata a' = metadata a /\
       (forall r', r' <> r -> s' !! r' = s !! r') /\
       dom s' = dom s).
Proof.
  assert (G : forall (F : Framework) (X : Type) (obs : App -> X)
                (self : FastAPIApp) (r : ref) (a : App)
                (cs : list Attachment) (s : store),
            (forall a cls kw, obs (App_add_middleware a cls kw).1 = obs a) ->
            app self = Some r -> s !! r = Some a ->
            exists s' a',
              final_store (attach_all self cs s) = Some s' /\
              s' !! r = Some a' /\ obs a' = obs a /\
              (forall r', r' <> r -> s' !! r' = s !! r') /\
              dom s' = dom s).
  { intros F X obs self r a cs s Hobs H Ha.
    rewrite (attach_all_constructed self r cs s H).
    destruct (install_all_preserves obs r (map unit_of cs) Hobs s a Ha)
      as (s' & a' & Hs' & Hl & Ho).
    destruct (install_all_frame r (map unit_of cs) s) as (s2 & Hs2 & _ & Hf & Hd).
    { rewrite Ha; eauto. }
    rewrite Hs' in Hs2. injection Hs2 as <-.
    exists s', a'. auto. }
  split; [exact G|].
  intros check_args check_unit self r a cs s H Ha.
  apply (G (recording check_args check_unit) _ metadata self r a cs s);
    [|exact H|exact Ha].
  intros a0 cls kw. apply recording_keeps_metadata.
Qed.

(** On the fixture, in the framework that rejects an empty list of
    allowed hosts: GZip, then a trusted-host call with the empty list,
    which the framework rejects.  The metadata are unchanged. *)
Lemma attachments_change_only_the_chain_witness :
  exists s' a',
    final_store
      (attach_all (F := strict) self0
         [Call_add_gzip_middleware (given (PyInt 1000));
          Call_add_trusted_host_middleware (PyList [])] store0) = Some s' /\
    s' !! 1%positive = Some a' /\ metadata a' = metadata app0 /\
    (forall r', r' <> 1%positive -> s' !! r' = store0 !! r') /\
    dom s' = dom store0.
Proof.
  exact (proj2 attachments_change_only_the_chain _ _ self0 1%positive app0
           [Call_add_gzip_middleware (given (PyInt 1000));
            Call_add_trusted_host_middleware (PyList [])] store0
           eq_refl eq_refl).
Defined.

(** ** Further properties of the methods *)

Section Sequences.
Context {F : Framework}.

(** A sequence of attachment calls in two parts: the second part runs from
    the store the first part leaves, and only when the first part
    returns. *)
Lemma attach_all_app (self : FastAPIApp) (cs1 cs2 : list Attachment)
    (s : store) :
  attach_all self (cs1 ++ cs2) s =
  match attach_all self cs1 s with
  | Return _ s1 => attach_all self cs2 s1
  | Raise e s1 => Raise e s1
  | Wrong => Wrong
  end.
Proof.
  revert s. induction cs1 as [|c cs1 IH]; intros s; [reflexivity|].
  rewrite <- app_comm_cons. cbn [attach_all]. rewrite !bind_run.
  destruct (attach self c s); auto.
Qed.

(** A sequence of attachment calls on a constructed instance whose
    reference is live ends with the reference live, every other object
    as it was and no object added or removed. *)
Lemma attach_all_frame (self : FastAPIApp) (r : ref)
    (cs : list Attachment) (s : store) :
  app self = Some r -> is_Some (s !! r) ->
  exists s', final_store (attach_all self cs s) = Some s' /\
    is_Some (s' !! r) /\
    (forall r', r' <> r -> s' !! r' = s !! r') /\
    dom s' = dom s.
Proof.
  intros H Hr. rewrite (attach_all_constructed self r cs s H).
  apply install_all_frame, Hr.
Qed.

(** The reference the constructor allocates is none of the live ones. *)
Lemma fresh_ref_not_live (s : store) (r : ref) (a : App) :
  s !! r = Some a -> fresh (dom s) <> r.
Proof.
  intros Ha E. pose proof (is_fresh (dom s)) as Hf.
  apply Hf. rewrite E. apply elem_of_dom. eauto.
Qed.

End Sequences.

(** X1: the HTTPS-redirect attachment takes no argument and makes one
    call of the framework's [add_middleware] with the HTTPS-redirect class
    and no option at all; in the framework that rejects nothing the chain
    grows by exactly that unit. *)
Theorem https_redirect_installs_bare_unit :
  (forall (F : Framework) (self : FastAPIApp) (r : ref) (a : App)
          (s : store),
     app self = Some r -> s !! r = Some a ->
     add_https_redirect_middleware self s =
       framework_reply r a (HTTPSRedirectMiddleware, []) s)
  /\
  (forall (self : FastAPIApp) (r : ref) (a : RecordedApp)
          (s : gmap positive RecordedApp),
     app self = Some r -> s !! r = Some a ->
     add_https_redirect_middleware (F := permissive) self s =
     Return (F := permissive) tt
       (<[r := {| metadata := metadata a;
                  user_middleware :=
                    user_middleware a ++ [(HTTPSRedirectMiddleware, [])]
               |}]> s)).
Proof.
  split.
  - intros F self r a s H Ha.
    exact (attach_live self r a Call_add_https_redirect_middleware s H Ha).
  - intros self r a s H Ha.
    exact (permissive_attach self r a Call_add_https_redirect_middleware
             s H Ha).
Qed.

(** HTTPS redirect attached on the fixture. *)
Lemma https_redirect_installs_bare_unit_witness :
  add_https_redirect_middleware (F := permissive) self0 store0 =
  Return (F := permissive) tt
    (<[1%positive :=
         {| metadata := metadata app0;
            user_middleware := [(HTTPSRedirectMiddleware, [])] |}]> store0).
Proof.
  exact (proj2 https_redirect_installs_bare_unit self0 1%positive app0
           store0 eq_refl eq_refl).
Defined.

(** X2: each of the four convenience methods is the generic
    [add_middleware] called with its class and its options, and
    [add_middleware] is [get_app] followed by the framework's
    [add_middleware] on the reference returned.  This holds on every
    instance and from every store, the bare instance included. *)
Theorem convenience_methods_are_add_middleware :
  forall (F : Framework) (self : FastAPIApp) (s : store),
    (forall o c m h : arg PyVal,
       add_cors_middleware self o c m h s =
       add_middleware self CORSMiddleware
         [("allow_origins", or_default (PyTuple [PyStr "*"]) o);
          ("allow_credentials", or_default (PyBool true) c);
          ("allow_methods", or_default (PyTuple [PyStr "*"]) m);
          ("allow_headers", or_default (PyTuple [PyStr "*"]) h)] s) /\
    (forall n : arg PyVal,
       add_gzip_middleware self n s =
       add_middleware self GZipMiddleware
         [("minimum_size", or_default (PyInt 500) n)] s) /\
    add_https_redirect_middleware self s =
      add_middleware self HTTPSRedirectMiddleware [] s /\
    (forall hs : PyVal,
       add_trusted_host_middleware self hs s =
       add_middleware self TrustedHostMiddleware [("allowed_hosts", hs)] s) /\
    (forall cls kw,
       add_middleware self cls kw s =
       (get_app self ≫= fun r => call_add_middleware r cls kw) s).
Proof.
  intros F self s.
  split; [|split; [|split; [|split]]]; intros; reflexivity.
Qed.

(** X3: running [__init__] again on a constructed instance binds the
    instance to a new application object at a new reference.  The
    earlier application object stays in the store as it was, and no
    attachment made through the instance afterwards reaches it. *)
Theorem init_again_leaves_old_application :
  forall (F : Framework) (self : FastAPIApp) (r : ref) (a : App)
         t d v du ru ou op ot tos c li kw (s s' : store)
         (self' : FastAPIApp),
    app self = Some r -> s !! r = Some a ->
    __init__ self t d v du ru ou op ot tos c li kw s = Return self' s' ->
    exists r' a',
      app self' = Some r' /\ r' <> r /\
      s' !! r = Some a /\ s' !! r' = Some a' /\
      FastAPI (init_args t d v du ru ou op ot tos c li kw) = inr a' /\
      forall cs : list Attachment,
        exists s'',
          final_store (attach_all self' cs s') = Some s'' /\
          s'' !! r = Some a.
Proof.
  intros F self r a t d v du ru ou op ot tos c li kw s s' self' H Ha.
  rewrite init_run.
  destruct (FastAPI _) as [e|a'] eqn:Hf; [discriminate|].
  intros [= <- <-].
  pose proof (fresh_ref_not_live s r a Ha) as Hne.
  exists (fresh (dom s)), a'.
  split; [reflexivity|]. split; [exact Hne|].
  split; [rewrite lookup_insert_ne; auto|].
  split; [apply lookup_insert_eq|]. split; [reflexivity|].
  intros cs.
  destruct (attach_all_frame {| app := Some (fresh (dom s)) |}
              (fresh (dom s)) cs (<[fresh (dom s) := a']> s) eq_refl)
    as (s'' & Hs'' & _ & Hfr & _).
  { rewrite lookup_insert_eq. eauto. }
  exists s''. split; [exact Hs''|].
  rewrite (Hfr r); [|auto]. rewrite lookup_insert_ne; auto.
Qed.

(** On the fixture: [__init__] run again with a new title.  The instance
    now holds reference 2; the object at reference 1 is the old one. *)
Lemma init_again_leaves_old_application_witness :
  exists r' a',
    app {| app := Some 2%positive |} = Some r' /\ r' <> 1%positive /\
    (<[2%positive :=
         {| metadata :=
              init_args (given (PyStr "Second")) omitted omitted omitted
                omitted omitted omitted omitted omitted omitted omitted [];
            user_middleware := [] |}]> store0) !! 1%positive = Some app0 /\
    (<[2%positive :=
         {| metadata :=
              init_args (given (PyStr "Second")) omitted omitted omitted
                omitted omitted omitted omitted omitted omitted omitted [];
            user_middleware := [] |}]> store0) !! r' = Some a' /\
    FastAPI (Framework := permissive)
      (init_args (given (PyStr "Second")) omitted omitted omitted
         omitted omitted omitted omitted omitted omitted omitted [])
    = inr a' /\
    forall cs : list Attachment,
      exists s'',
        final_store
          (attach_all (F := permissive) {| app := Some 2%positive |} cs
             (<[2%positive :=
                  {| metadata :=
                       init_args (given (PyStr "Second")) omitted omitted
                         omitted omitted omitted omitted omitted omitted
                         omitted omitted [];
                     user_middleware := [] |}]> store0)) = Some s'' /\
        s'' !! 1%positive = Some app0.
Proof.
  apply (init_again_leaves_old_application permissive self0 1%positive app0
           (given (PyStr "Second")) omitted omitted omitted omitted omitted
           omitted omitted omitted omitted omitted [] store0).
  - reflexivity.
  - reflexivity.
  - vm_compute. reflexivity.
Defined.

(** X4: a newly constructed instance is isolated from everything the
    store already holds.  After the constructor returns, any sequence of
    attachment calls on the new instance, failing or not, ends with
    [get_app] returning the constructor's reference, that reference live,
    every application object that existed before the construction as it
    was, and the new object the only one added. *)
Theorem new_instance_is_isolated :
  forall (F : Framework) t d v du ru ou op ot tos c li kw
         (s s1 : store) (self : FastAPIApp) (cs : list Attachment),
    new_FastAPIApp t d v du ru ou op ot tos c li kw s = Return self s1 ->
    exists s2 a2,
      final_store (attach_all self cs s1) = Some s2 /\
      get_app self s2 = Return (fresh (dom s)) s2 /\
      s2 !! fresh (dom s) = Some a2 /\
      (forall r a, s !! r = Some a -> s2 !! r = Some a) /\
      dom s2 = {[fresh (dom s)]} ∪ dom s.
Proof.
  intros F t d v du ru ou op ot tos c li kw s s1 self cs.
  unfold new_FastAPIApp. rewrite init_run.
  destruct (FastAPI _) as [e|a'] eqn:Hf; [discriminate|].
  intros [= <- <-].
  destruct (attach_all_frame {| app := Some (fresh (dom s)) |}
              (fresh (dom s)) cs (<[fresh (dom s) := a']> s) eq_refl)
    as (s2 & Hs2 & [a2 Hl] & Hfr & Hd).
  { rewrite lookup_insert_eq. eauto. }
  exists s2, a2. split; [exact Hs2|]. split; [reflexivity|].
  split; [exact Hl|]. split.
  - intros r a Ha. pose proof (fresh_ref_not_live s r a Ha) as Hne.
    rewrite (Hfr r); [|auto]. rewrite lookup_insert_ne; auto.
  - rewrite Hd. apply dom_insert_L.
Qed.

(** A second instance constructed in the store of the fixture, then GZip
    and CORS attached to it: the application of the fixture, at
    reference 1, is untouched. *)
Lemma new_instance_is_isolated_witness :
  exists s2 a2,
    final_store
      (attach_all (F := permissive) {| app := Some 2%positive |}
         [Call_add_gzip_middleware omitted;
          Call_add_cors_middleware omitted omitted omitted omitted]
         (<[2%positive := app0]> store0)) = Some s2 /\
    get_app (F := permissive) {| app := Some 2%positive |} s2 =
      Return (F := permissive) (fresh (dom store0)) s2 /\
    s2 !! fresh (dom store0) = Some a2 /\
    (forall r a, store0 !! r = Some a -> s2 !! r = Some a) /\
    dom s2 = {[fresh (dom store0)]} ∪ dom store0.
Proof.
  apply (new_instance_is_isolated permissive omitted omitted omitted omitted
           omitted omitted omitted omitted omitted omitted omitted []
           store0).
  vm_compute. reflexivity.
Defined.

(** In a reference framework, a run of installations of units that the
    framework accepts extends the chain by the units, in their order. *)
Lemma recording_install_all_accepted check_args check_unit (r : ref)
    (us : list MiddlewareUnit) :
  Forall (fun u => check_unit u.1 u.2 = None) us ->
  forall (s : gmap positive RecordedApp) (a : RecordedApp),
  s !! r = Some a ->
  install_all (F := recording check_args check_unit) r us s =
  Return (F := recording check_args check_unit) tt
    (<[r := {| metadata := metadata a;
               user_middleware := user_middleware a ++ us |}]> s).
Proof.
  induction 1 as [|[cls kw] us Hu _ IH]; intros s a Ha.
  - cbn [install_all]. rewrite app_nil_r. destruct a as [m c]; simpl.
    rewrite insert_id; [reflexivity | exact Ha].
  - cbn [install_all fst snd] in *. rewrite bind_run.
    rewrite (call_add_middleware_live
               (F := recording check_args check_unit) r a cls kw s Ha).
    unfold framework_reply. cbn [fst snd App_add_middleware recording].
    rewrite Hu.
    rewrite (IH _ _ (lookup_insert_eq s r _)). cbn [metadata user_middleware].
    rewrite insert_insert_eq, <- app_assoc. reflexivity.
Qed.

(** X5: an attachment call that raises ends the sequence it is part of.
    The exception leaves the sequence as raised, the calls after it are
    not made, and what the calls before it installed stays: nothing is
    rolled back.  In a reference framework, when the calls before are
    accepted and the framework rejects the unit of the failing call, the
    chain holds exactly the units of the calls before it. *)
Theorem failed_attachment_stops_sequence :
  (forall (F : Framework) (self : FastAPIApp)
          (cs1 cs2 : list Attachment) (c : Attachment)
          (s s1 s2 : store) (e : PyExn),
     attach_all self cs1 s = Return tt s1 ->
     attach self c s1 = Raise e s2 ->
     attach_all self (cs1 ++ c :: cs2) s = Raise e s2)
  /\
  (forall check_args check_unit (self : FastAPIApp) (r : ref)
          (a : RecordedApp) (cs1 cs2 : list Attachment) (c : Attachment)
          (s : gmap positive RecordedApp) (e : PyExn),
     app self = Some r -> s !! r = Some a ->
     Forall (fun u => check_unit u.1 u.2 = None) (map unit_of cs1) ->
     check_unit (unit_of c).1 (unit_of c).2 = Some e ->
     attach_all (F := recording check_args check_unit) self
       (cs1 ++ c :: cs2) s =
     Raise (F := recording check_args check_unit) e
       (<[r := {| metadata := metadata a;
                  user_middleware :=
                    user_middleware a ++ map unit_of cs1 |}]> s)).
Proof.
  split.
  - intros F self cs1 cs2 c s s1 s2 e H1 H2.
    rewrite attach_all_app, H1. cbn [attach_all]. rewrite bind_run, H2.
    reflexivity.
  - intros check_args check_unit self r a cs1 cs2 c s e H Ha Hok Hrej.
    rewrite attach_all_app.
    rewrite (attach_all_constructed
               (F := recording check_args check_unit) self r cs1 s H).
    rewrite (recording_install_all_accepted check_args check_unit r
               (map unit_of cs1) Hok s a Ha).
    cbn [attach_all]. rewrite bind_run.
    rewrite (attach_live (F := recording check_args check_unit) self r _ c
               _ H (lookup_insert_eq s r _)).
    unfold framework_reply. cbn [fst snd App_add_middleware recording].
    rewrite Hrej. rewrite insert_insert_eq. reflexivity.
Qed.

(** In the framework that rejects an empty list of allowed hosts: GZip,
    the rejected trusted-host call, then CORS.  The exception is the
    framework's, the chain holds GZip alone and CORS was never attached. *)
Lemma failed_attachment_stops_sequence_witness :
  attach_all (F := strict) self0
    ([Call_add_gzip_middleware omitted] ++
     Call_add_trusted_host_middleware (PyList []) ::
     [Call_add_cors_middleware omitted omitted omitted omitted]) store0 =
  Raise (F := strict) (mkExn "ValueError" "allowed_hosts is empty")
    (<[1%positive :=
         {| metadata := metadata app0;
            user_middleware :=
              user_middleware app0 ++
              map unit_of [Call_add_gzip_middleware omitted] |}]> store0).
Proof.
  apply (proj2 failed_attachment_stops_sequence _ _ self0 1%positive app0
           [Call_add_gzip_middleware omitted]
           [Call_add_cors_middleware omitted omitted omitted omitted]
           (Call_add_trusted_host_middleware (PyList [])) store0
           (mkExn "ValueError" "allowed_hosts is empty")).
  - reflexivity.
  - reflexivity.
  - repeat constructor.
  - reflexivity.
Defined.

(** X6: attachment calls on two instances that hold different
    application objects do not interfere: when the framework accepts
    both units, the two calls leave the same store in either order. *)
Theorem attachments_on_distinct_instances_commute :
  forall (F : Framework) (selfA selfB : FastAPIApp) (rA rB : ref)
         (aA aB : App) (cA cB : Attachment) (s : store),
    app selfA = Some rA -> app selfB = Some rB -> rA <> rB ->
    s !! rA = Some aA -> s !! rB = Some aB ->
    (App_add_middleware aA (unit_of cA).1 (unit_of cA).2).2 = None ->
    (App_add_middleware aB (unit_of cB).1 (unit_of cB).2).2 = None ->
    (attach selfA cA;; attach selfB cB) s =
    (attach selfB cB;; attach selfA cA) s /\
    (attach selfA cA;; attach selfB cB) s =
    Return tt
      (<[rB := (App_add_middleware aB (unit_of cB).1 (unit_of cB).2).1]>
         (<[rA := (App_add_middleware aA (unit_of cA).1 (unit_of cA).2).1]>
            s)).
Proof.
  intros F selfA selfB rA rB aA aB cA cB s HA HB Hne HaA HaB HokA HokB.
  assert (EA : forall s0, s0 !! rA = Some aA ->
            attach selfA cA s0 =
            Return tt
              (<[rA := (App_add_middleware aA (unit_of cA).1
                          (unit_of cA).2).1]> s0)).
  { intros s0 H0. rewrite (attach_live selfA rA aA cA s0 HA H0).
    unfold framework_reply.
    destruct (App_add_middleware aA _ _) as [a' [e|]]; [discriminate|].
    reflexivity. }
  assert (EB : forall s0, s0 !! rB = Some aB ->
            attach selfB cB s0 =
            Return tt
              (<[rB := (App_add_middleware aB (unit_of cB).1
                          (unit_of cB).2).1]> s0)).
  { intros s0 H0. rewrite (attach_live selfB rB aB cB s0 HB H0).
    unfold framework_reply.
    destruct (App_add_middleware aB _ _) as [a' [e|]]; [discriminate|].
    reflexivity. }
  rewrite !bind_run, (EA s HaA), (EB s HaB).
  rewrite EB by (rewrite lookup_insert_ne; auto).
  rewrite EA by (rewrite lookup_insert_ne; auto).
  split; [|reflexivity].
  f_equal. apply insert_insert_ne. auto.
Qed.

(** Two instances in one store of the framework that rejects nothing:
    GZip on the first and HTTPS redirect on the second, in either
    order. *)
Lemma attachments_on_distinct_instances_commute_witness :
  (attach (F := permissive) self0 (Call_add_gzip_middleware omitted);;
   attach (F := permissive) {| app := Some 2%positive |}
     Call_add_https_redirect_middleware)
    (<[2%positive := app0]> store0) =
  (attach (F := permissive) {| app := Some 2%positive |}
     Call_add_https_redirect_middleware;;
   attach (F := permissive) self0 (Call_add_gzip_middleware omitted))
    (<[2%positive := app0]> store0).
Proof.
  apply (attachments_on_distinct_instances_commute permissive self0
           {| app := Some 2%positive |} 1%positive 2%positive app0 app0
           (Call_add_gzip_middleware omitted)
           Call_add_https_redirect_middleware
           (<[2%positive := app0]> store0));
    first [reflexivity | discriminate].
Defined.
